(** * crop-model-figure: the formula layer of the plotting scripts

    Each script of the repository defines one closed-form crop-physiology
    formula as a Python function and then plots it.  This development embeds
    those functions and settles the properties the specification states about
    them.

    Two readings of a Python number are used.

    - Exact arithmetic (the top level of this file): a Python [int] or [float]
      is a real number, [+], [-] and [*] are the field operations, and [/] and
      [**] keep their Python behaviour on the inputs where they do not return a
      number (a zero divisor raises [ZeroDivisionError]).  Rounding is not
      modelled.  The algebraic properties (linearity, monotonicity, dot
      product) are stated in this reading.

    - Binary64 arithmetic ([Module F64]): a number is an IEEE-754 binary64
      value tagged with its origin, a Python scalar or a numpy value (an
      element of an array built by [np.linspace] or [np.meshgrid], as the plot
      drivers pass).  Only here do infinities and NaN exist, so the property
      about zero divisors is stated in this reading. *)

From Stdlib Require Import Reals Lra List Bool PeanoNat ZArith.
From Stdlib Require Import Floats.
From Stdlib Require Import Lia Psatz Sorted.
Import ListNotations.

Set Implicit Arguments.

(** ** Outcomes of an evaluation *)

(** What ends an evaluation without a number of the model. *)
Inductive exn : Type :=
| ZeroDivisionError
    (* Python: [x / 0], [0 ** negative] *)
| ValueError_broadcast (n m : nat)
    (* numpy: operands could not be broadcast together with shapes (n,) (m,) *)
| ComplexResult
    (* Python: [negative ** fractional] is a [complex]; the model holds reals only *).

Inductive result (A : Type) : Type :=
| Ok (a : A)
| Raise (e : exn).

Arguments Ok {A} a.
Arguments Raise {A} e.

Definition bind {A B : Type} (r : result A) (k : A -> result B) : result B :=
  match r with
  | Ok a => k a
  | Raise e => Raise e
  end.

Notation "x <- r ;; k" := (bind r (fun x => k))
  (at level 61, r at next level, right associativity).

(** ** Exact arithmetic: Python scalars as real numbers *)

Open Scope R_scope.

(** Python's [x / y]. *)
Definition truediv (x y : R) : result R :=
  if Req_dec_T y 0 then Raise ZeroDivisionError else Ok (x / y).

(** Python's [x ** y] on real operands: the real power for a positive base,
    the conventions of [pow] for a zero base, and the integer power for a
    negative base with an integral exponent. *)
Definition pow (x y : R) : result R :=
  match total_order_T 0 x with
  | inleft (left _) => Ok (Rpower x y)
  | inleft (right _) =>
      match total_order_T 0 y with
      | inleft (left _) => Ok 0
      | inleft (right _) => Ok 1
      | inright _ => Raise ZeroDivisionError
      end
  | inright _ =>
      if Req_dec_T (IZR (Int_part y)) y
      then Ok (powerRZ x (Int_part y))
      else Raise ComplexResult
  end.

(** plot_growth_respiration.py: [return m * GTW] *)
Definition growth_respiration (GTW m : R) : R := m * GTW.

(** plot_net_photosynthesis.py: [return Vc - 0.5 * Vo - Rd] *)
Definition net_photosynthesis (Vc Vo Rd : R) : R := Vc - 0.5 * Vo - Rd.

(** plot_nitrogen_respiration.py: [return r_ref * (Ni / N_ref)] *)
Definition nitrogen_respiration_coefficient (Ni r_ref N_ref : R) : result R :=
  q <- truediv Ni N_ref ;;
  Ok (r_ref * q).

(** plot_rubisco_rp.py:
[[
    numerator = (O2 / Ks)
    denominator = (CO2 / Kc) + (1 + O2 / Ko)
    return Rpmax * numerator / denominator
]] *)
Definition rubisco_rp (CO2 O2 Rpmax Ks Kc Ko : R) : result R :=
  numerator <- truediv O2 Ks ;;
  c <- truediv CO2 Kc ;;
  o <- truediv O2 Ko ;;
  let denominator := c + (1 + o) in
  truediv (Rpmax * numerator) denominator.


Definition temperature_respiration (T Rm0 Q10 T0 : R) : result R :=
  e <- truediv (T - T0) 10 ;;
  p <- pow Q10 e ;;
  Ok (Rm0 * p).

(** ** numpy on one-dimensional arrays of exact numbers *)

(** [np.array] of a flat Python sequence of numbers: a 1-D array, shape
    [(length l,)]. *)
Definition ndarray : Type := list R.

Definition np_array (l : list R) : ndarray := l.

(** numpy's broadcasting rule for two 1-D shapes: equal, or one of them 1. *)
Definition broadcast_shape (n m : nat) : result nat :=
  if Nat.eqb n m then Ok n
  else if Nat.eqb n 1 then Ok m
  else if Nat.eqb m 1 then Ok n
  else Raise (ValueError_broadcast n m).

(** An array whose axis has length 1 is stretched along it; any other array
    reaches here with the target length already. *)
Definition broadcast_to (a : ndarray) (k : nat) : ndarray :=
  match a with
  | [x] => repeat x k
  | _ => a
  end.

Fixpoint zip_with (f : R -> R -> R) (a b : list R) : list R :=
  match a, b with
  | x :: a', y :: b' => f x y :: zip_with f a' b'
  | _, _ => []
  end.

(** [a * b] on arrays. *)
Definition np_multiply (a b : ndarray) : result ndarray :=
  k <- broadcast_shape (length a) (length b) ;;
  Ok (zip_with Rmult (broadcast_to a k) (broadcast_to b k)).

(** [np.sum] of a 1-D array: additions from the identity 0. *)
Definition np_sum (a : ndarray) : R := fold_left Rplus a 0.

(** plot_maintenance_respiration.py:
    [return np.sum(np.array(organ_weights) * np.array(organ_coeffs))] *)
Definition maintenance_respiration (organ_weights organ_coeffs : list R) : result R :=
  p <- np_multiply (np_array organ_weights) (np_array organ_coeffs) ;;
  Ok (np_sum p).

(** The specification's dot product, [sum(W_i * r_i for i in organs)]. *)
Fixpoint dot_product (W r : list R) : R :=
  match W, r with
  | w :: W', c :: r' => w * c + dot_product W' r'
  | _, _ => 0
  end.

(** ** Binary64 arithmetic: Python floats and numpy float64 values *)

Module F64.

(** A number and where it comes from.  The plot drivers call the formulas
    with numpy grids for the swept variable and Python floats for the
    constants; an array is read element by element. *)
Inductive num : Type :=
| Py (x : float)    (* a Python [float], or an [int] once it meets one *)
| Np (x : float).   (* a numpy [float64]: an array element or a scalar *)

Definition val (a : num) : float :=
  match a with Py x | Np x => x end.

(** Classes of binary64 values, read off the IEEE-754 decoding. *)
Definition is_zero (x : float) : bool :=
  match Prim2SF x with S754_zero _ => true | _ => false end.



(** [+] and [*]: two Python floats give a Python float; as soon as one operand
    is a numpy value the operation is numpy's and so is the result.  Neither
    raises. *)
Definition binop (op : float -> float -> float) (a b : num) : num :=
  match a, b with
  | Py x, Py y => Py (op x y)
  | _, _ => Np (op (val a) (val b))
  end.

Definition add : num -> num -> num := binop PrimFloat.add.
Definition mul : num -> num -> num := binop PrimFloat.mul.

(** [/]: Python's float division raises on a zero divisor (of either sign);
    numpy's returns the IEEE quotient (and only warns). *)
Definition truediv (a b : num) : result num :=
  match a, b with
  | Py x, Py y =>
      if is_zero y then Raise ZeroDivisionError else Ok (Py (PrimFloat.div x y))
  | _, _ => Ok (Np (PrimFloat.div (val a) (val b)))
  end.

(** plot_nitrogen_respiration.py: [return r_ref * (Ni / N_ref)] *)
Definition nitrogen_respiration_coefficient (Ni r_ref N_ref : num) : result num :=
  q <- truediv Ni N_ref ;;
  Ok (mul r_ref q).

(** plot_rubisco_rp.py, the same three statements as above. *)
Definition rubisco_rp (CO2 O2 Rpmax Ks Kc Ko : num) : result num :=
  numerator <- truediv O2 Ks ;;
  c <- truediv CO2 Kc ;;
  o <- truediv O2 Ko ;;
  let denominator := add c (add (Py 1%float) o) in
  truediv (mul Rpmax numerator) denominator.



End F64.


(** ** The plot drivers: grids, series and axis limits

    The drivers build a grid with [np.linspace], evaluate a formula on it
    element by element, and derive a few numbers for the axes.  The numeric
    part of each driver is embedded below in exact arithmetic, under the name
    of its script; drawing calls are left out. *)

(** [np.linspace(start, stop, num)] with the endpoint included: [num] samples
    [i * step + start] with [step = (stop - start) / (num - 1)], the last one
    set to [stop]; one sample is [start]; none is the empty array. *)
Definition linspace (start stop : R) (num : nat) : ndarray :=
  match num with
  | O => []
  | S O => [start]
  | S (S _) =>
      let step := (stop - start) / INR (num - 1) in
      map (fun i => INR i * step + start) (seq 0 (num - 1)) ++ [stop]
  end.

(** [np.linspace(start, stop, num, dtype=int)]: the samples rounded towards
    minus infinity. *)
Definition linspace_int (start stop : R) (num : nat) : list Z :=
  map Int_part (linspace start stop num).

(** [a * x] with a scalar [a] and an array [x]. *)
Definition scale (a : R) (x : ndarray) : ndarray := map (Rmult a) x.

(** Python's built-in [min] over an array; [None] stands for the [ValueError]
    on an empty one. *)
Definition py_min (a : ndarray) : option R :=
  match a with
  | [] => None
  | x :: a' => Some (fold_left Rmin a' x)
  end.

(** [styles[i % len(styles)]], the lookup the drivers use to cycle through
    line styles, colours and markers; [None] stands for an exception. *)
Definition cycle_lookup {A : Type} (styles : list A) (i : nat) : option A :=
  match styles with
  | [] => None
  | _ => nth_error styles (i mod length styles)
  end.

(** [np.linspace(margin, len(grid) - margin, k, dtype=int)], the positions of
    the markers drawn on a curve. *)
Definition sample_indices (margin len_grid k : nat) : list Z :=
  linspace_int (INR margin) (INR len_grid - INR margin) k.

(** An index array is valid for an array of length [n] when every index [i]
    has [-n <= i < n]. *)
Definition valid_indices (n : nat) (idx : list Z) : Prop :=
  Forall (fun i => (- Z.of_nat n <= i < Z.of_nat n)%Z) idx.

(** plot_rp_pg.py, [make_plot]. *)
Module plot_rp_pg.

Definition x (pg_max : R) : ndarray := linspace 0 pg_max 200.
Definition y_typ (alpha pg_max : R) : ndarray := scale alpha (x pg_max).
Definition y_min (alpha_min pg_max : R) : ndarray := scale alpha_min (x pg_max).
Definition y_max (alpha_max pg_max : R) : ndarray := scale alpha_max (x pg_max).

(** [ax.set_ylim(0, alpha_max * pg_max * 1.05)] *)
Definition ylim (alpha_max pg_max : R) : R * R := (0, alpha_max * pg_max * 1.05).

End plot_rp_pg.

(** plot_rubisco_rp.py, [make_plot]: the CO2 grid and one curve per oxygen
    level, the formula applied to each grid element. *)
Module plot_rubisco_rp.



End plot_rubisco_rp.

(** plot_net_photosynthesis.py, [make_component_plot] and [make_stacked_plot]. *)
Module plot_net_photosynthesis.

Definition Vc (Vc_max : R) : ndarray := linspace 0 Vc_max 300.

Definition An (Vc_max Vo Rd : R) : ndarray :=
  map (fun v => net_photosynthesis v Vo Rd) (Vc Vc_max).

Definition photorespiration (Vo : R) : R := - 0.5 * Vo.
Definition dark_respiration (Rd : R) : R := - Rd.

(** The lower edges of the two loss bands of the stacked plot, at one [Vc]:
    [Vc + photorespiration] and [Vc + photorespiration + dark_respiration]. *)
Definition after_photorespiration (v Vo : R) : R := v + photorespiration Vo.
Definition after_dark_respiration (v Vo Rd : R) : R :=
  v + photorespiration Vo + dark_respiration Rd.

(** [ax.set_ylim(min(An) * 1.1, Vc_max * 1.05)] of the stacked plot. *)
Definition ylim (Vc_max Vo Rd : R) : option (R * R) :=
  match py_min (An Vc_max Vo Rd) with
  | Some lo => Some (lo * 1.1, Vc_max * 1.05)
  | None => None
  end.

End plot_net_photosynthesis.

(** plot_growth_respiration.py, [make_daily_pattern_plot] and
    [make_composite_coefficient_plot]. *)
Module plot_growth_respiration.

(** [GTW = max_GTW * np.exp(-((days - peak_day) / 25)**2)] at one day. *)
Definition GTW (max_GTW peak_day day : R) : result R :=
  q <- truediv (day - peak_day) 25 ;;
  s <- pow q 2 ;;
  Ok (max_GTW * exp (- s)).

(** [Rg = growth_respiration(GTW, m)] at one day. *)
Definition Rg (m max_GTW peak_day day : R) : result R :=
  g <- GTW max_GTW peak_day day ;;
  Ok (growth_respiration g m).

(** [peak_Rg = m * max_GTW] *)
Definition peak_Rg (m max_GTW : R) : R := m * max_GTW.


End plot_growth_respiration.

(** plot_maintenance_respiration.py, [make_organ_contribution_plot] and
    [make_weight_sensitivity_plot]. *)
Module plot_maintenance_respiration.

(** A rectangular 2-D array, one row per growth stage. *)
Definition matrix : Type := list ndarray.

Fixpoint sequence_result {A : Type} (l : list (result A)) : result (list A) :=
  match l with
  | [] => Ok []
  | r :: l' => x <- r ;; xs <- sequence_result l' ;; Ok (x :: xs)
  end.

(** [contributions = weights * coeffs]: the coefficient array is broadcast
    against the last axis, that is against every row. *)
Definition contributions (weights : matrix) (coeffs : ndarray) : result matrix :=
  sequence_result (map (fun row => np_multiply row coeffs) weights).

(** [contributions[:, i]]; [None] stands for the [IndexError]. *)
Fixpoint column (i : nat) (M : matrix) : option ndarray :=
  match M with
  | [] => Some []
  | row :: M' =>
      match nth_error row i, column i M' with
      | Some x, Some c => Some (x :: c)
      | _, _ => None
      end
  end.

(** One turn of the stacking loop: [bottom += contributions[:, i]]. *)
Definition stack_step (M : matrix) (bottom : option ndarray) (i : nat) : option ndarray :=
  match bottom, column i M with
  | Some b, Some c => Some (zip_with Rplus b c)
  | _, _ => None
  end.

(** [bottom] after the loop over the organs, from [np.zeros] of one entry per
    growth stage. *)
Definition stacked_totals (n_organs : nat) (M : matrix) : option ndarray :=
  fold_left (stack_step M) (seq 0 n_organs) (Some (repeat 0 (length M))).


End plot_maintenance_respiration.

(** plot_temperature_respiration.py, [make_relative_change_plot]:
    [relative_change = Q10**((T - T0) / 10)]. *)
Module plot_temperature_respiration.


End plot_temperature_respiration.

(** * Proofs *)

(** ** IEEE special values through binary64 operations

    Each lemma reads the operation through its specification on decoded
    floats; no case needs the rounding of a finite result. *)

Section SpecialValues.

Import F64.







End SpecialValues.

(** ** Tagged binary64 numbers *)

Section TaggedNumbers.

Import F64.


Lemma binop_Np_l (op : float -> float -> float) (x : float) (b : num) :
  binop op (Np x) b = Np (op x (val b)).
Proof. destruct b; reflexivity. Qed.

Lemma binop_Np_r (op : float -> float -> float) (a : num) (y : float) :
  binop op a (Np y) = Np (op (val a) y).
Proof. destruct a; reflexivity. Qed.

Lemma truediv_Np_r (a : num) (y : float) :
  truediv a (Np y) = Ok (Np (PrimFloat.div (val a) y)).
Proof. destruct a; reflexivity. Qed.




End TaggedNumbers.

(** ** Exact arithmetic: when the divisions return *)

Lemma truediv_ok (x y : R) : y <> 0 -> truediv x y = Ok (x / y).
Proof.
  intros Hy. unfold truediv. destruct (Req_dec_T y 0) as [E|_]; [contradiction | reflexivity].
Qed.

Lemma truediv_zero (x : R) : truediv x 0 = Raise ZeroDivisionError.
Proof.
  unfold truediv. destruct (Req_dec_T 0 0) as [_|N]; [reflexivity | now contradiction N].
Qed.







(** ** Growth respiration *)



(** ** Net photosynthesis *)



(** ** Nitrogen-scaled maintenance coefficient *)



(** ** Temperature-scaled maintenance respiration *)

Lemma temperature_exponent (T T0 : R) : truediv (T - T0) 10 = Ok ((T - T0) / 10).
Proof. apply truediv_ok. lra. Qed.




(** ** Rubisco-kinetics respiration *)






(** ** Maintenance respiration *)

Lemma fold_left_Rplus_zip (a b : list R) (acc : R) :
  fold_left Rplus (zip_with Rmult a b) acc = acc + dot_product a b.
Proof.
  revert b acc. induction a as [|x a IH]; intros [|y b] acc; simpl; try lra.
  rewrite IH. lra.
Qed.

Lemma np_sum_zip_with (a b : list R) :
  np_sum (zip_with Rmult a b) = dot_product a b.
Proof. unfold np_sum. rewrite fold_left_Rplus_zip. lra. Qed.

Lemma broadcast_to_same (a : ndarray) : broadcast_to a (length a) = a.
Proof. destruct a as [|x [|y a]]; reflexivity. Qed.

Lemma broadcast_to_other (a : ndarray) (k : nat) :
  length a <> 1%nat -> broadcast_to a k = a.
Proof. destruct a as [|x [|y a]]; simpl; intros H; [reflexivity | now contradiction H | reflexivity]. Qed.

Lemma dot_product_comm (a b : list R) : dot_product a b = dot_product b a.
Proof.
  revert b. induction a as [|x a IH]; intros [|y b]; simpl; try reflexivity.
  rewrite IH. lra.
Qed.

Lemma dot_product_repeat_l (w : R) (r : list R) :
  dot_product (repeat w (length r)) r = w * fold_right Rplus 0 r.
Proof. induction r as [|c r IH]; simpl; [lra | rewrite IH; lra]. Qed.

(** Equal lengths: no broadcasting, no error, the dot product. *)
Lemma maintenance_respiration_equal_length (W r : list R) :
  length W = length r -> maintenance_respiration W r = Ok (dot_product W r).
Proof.
  intros E. unfold maintenance_respiration, np_multiply, np_array, broadcast_shape.
  rewrite <- E, Nat.eqb_refl. simpl.
  rewrite broadcast_to_same. rewrite E, broadcast_to_same.
  now rewrite np_sum_zip_with.
Qed.

(** A weight sequence of length 1 against coefficients of another length:
    numpy stretches the single weight, and a number comes back. *)
Lemma C2_counterexample_length_1_broadcasts :
  length [2] <> length [1; 2; 3]
  /\ maintenance_respiration [2] [1; 2; 3] = Ok 12.
Proof.
  split; [simpl; discriminate |].
  unfold maintenance_respiration, np_multiply, np_array, np_sum. simpl.
  f_equal. lra.
Qed.

(** C2 (amended).  For sequences of unequal lengths neither of which is 1,
    [maintenance_respiration] ends in numpy's shape-mismatch error and returns
    no number; the error is the only outcome, so nothing partial is computed.
    When exactly one sequence has length 1, its element is broadcast over the
    other sequence and a number is returned. *)
Theorem C2_maintenance_respiration_shape_mismatch (W r : list R) :
  length W <> length r ->
  (length W <> 1%nat -> length r <> 1%nat ->
     maintenance_respiration W r
     = Raise (ValueError_broadcast (length W) (length r)))
  /\ (forall w, W = [w] ->
        maintenance_respiration W r = Ok (dot_product (repeat w (length r)) r))
  /\ (forall c, r = [c] ->
        maintenance_respiration W r = Ok (dot_product W (repeat c (length W)))).
Proof.
  intros Hne.
  apply Nat.eqb_neq in Hne.
  unfold maintenance_respiration, np_multiply, np_array, broadcast_shape.
  rewrite Hne. repeat split.
  - intros HW Hr. apply Nat.eqb_neq in HW, Hr. now rewrite HW, Hr.
  - intros w ->. simpl.
    rewrite broadcast_to_other.
    + now rewrite np_sum_zip_with.
    + apply Nat.eqb_neq in Hne. simpl in Hne. congruence.
  - intros c ->. simpl (length [c]) in *.
    destruct (Nat.eqb (length W) 1) eqn:EW.
    + rewrite Hne in EW. discriminate.
    + simpl. rewrite broadcast_to_other by now apply Nat.eqb_neq.
      now rewrite np_sum_zip_with.
Qed.

Lemma C2_maintenance_respiration_witness :
  length [100; 100] <> length [0.015; 0.010; 0.012]
  /\ maintenance_respiration [100; 100] [0.015; 0.010; 0.012]
     = Raise (ValueError_broadcast 2 3).
Proof.
  assert (H : length [100; 100] <> length [0.015; 0.010; 0.012])
    by (simpl; discriminate).
  split; [exact H |].
  apply (proj1 (C2_maintenance_respiration_shape_mismatch [100; 100] [0.015; 0.010; 0.012] H));
    simpl; discriminate.
Defined.



(** C9.  For sequences of equal length the two arguments can be exchanged:
    both orders return the same number, and neither raises. *)
Theorem C9_maintenance_respiration_symmetric (W r : list R) :
  length W = length r ->
  exists v, maintenance_respiration W r = Ok v /\ maintenance_respiration r W = Ok v.
Proof.
  intros E. exists (dot_product W r). split.
  - now apply maintenance_respiration_equal_length.
  - rewrite maintenance_respiration_equal_length by now symmetry.
    now rewrite dot_product_comm.
Qed.

Lemma C9_maintenance_respiration_witness :
  length [100; 100; 100] = length [0.015; 0.010; 0.012]
  /\ exists v,
       maintenance_respiration [100; 100; 100] [0.015; 0.010; 0.012] = Ok v
       /\ maintenance_respiration [0.015; 0.010; 0.012] [100; 100; 100] = Ok v.
Proof.
  split; [reflexivity |].
  apply C9_maintenance_respiration_symmetric. reflexivity.
Defined.

(** ** Zero divisors *)

(** Exact arithmetic, Python scalars throughout: a zero divisor ends both
    functions with the division's own [ZeroDivisionError]. *)
Lemma nitrogen_zero_N_ref_raises (Ni r_ref : R) :
  nitrogen_respiration_coefficient Ni r_ref 0 = Raise ZeroDivisionError.
Proof. unfold nitrogen_respiration_coefficient. now rewrite truediv_zero. Qed.


Section ZeroDivisorsBinary64.

Import F64.






End ZeroDivisorsBinary64.

Section ZeroDivisorClaim.

Import F64.
Local Open Scope float_scope.






End ZeroDivisorClaim.

(** * Further properties of the formulas and of the plot drivers *)

(** ** Grids *)

Lemma linspace_length (start stop : R) (num : nat) :
  length (linspace start stop num) = num.
Proof.
  destruct num as [|[|k]]; simpl; try reflexivity.
  rewrite length_app, length_map, length_seq. simpl. now rewrite Nat.add_comm.
Qed.

(** Every sample lies between the endpoints. *)
Lemma linspace_bounds (start stop : R) (num : nat) :
  start <= stop -> Forall (fun v => start <= v <= stop) (linspace start stop num).
Proof.
  intros Hle. destruct num as [|[|k]].
  - constructor.
  - constructor; [lra | constructor].
  - unfold linspace. apply Forall_app. split.
    + apply Forall_forall. intros v Hv. apply in_map_iff in Hv.
      destruct Hv as (i & <- & Hi). apply in_seq in Hi.
      replace (S (S k) - 1)%nat with (S k) in * by lia.
      assert (Hk : 0 < INR (S k)) by (apply lt_0_INR; lia).
      assert (Hi' : 0 <= INR i <= INR (S k)).
      { split; [apply pos_INR | apply le_INR; lia]. }
      assert (Hq : 0 <= INR i / INR (S k) <= 1).
      { split.
        - apply Rmult_le_pos; [lra | left; now apply Rinv_0_lt_compat].
        - apply (Rmult_le_reg_r (INR (S k))); [exact Hk |].
          unfold Rdiv. rewrite Rmult_assoc, Rinv_l by lra. lra. }
      replace (INR i * ((stop - start) / INR (S k)) + start)
        with (start + INR i / INR (S k) * (stop - start)) by (field; lra).
      split; nra.
    + constructor; [lra | constructor].
Qed.



(** ** Rubisco-kinetics respiration: failure and range *)





(** ** Temperature response: steps, monotonicity, edges *)









(** X6.  With Python scalars and [Q10 = 0] the function has three outcomes:
    below the reference temperature the exponent is negative and
    [0 ** negative] raises [ZeroDivisionError]; at the reference temperature
    it returns [Rm0] ([0 ** 0] is 1); above it, it returns 0. *)
Theorem X6_temperature_respiration_zero_Q10 (T Rm0 T0 : R) :
  (T < T0 -> temperature_respiration T Rm0 0 T0 = Raise ZeroDivisionError)
  /\ (T = T0 -> temperature_respiration T Rm0 0 T0 = Ok Rm0)
  /\ (T0 < T -> temperature_respiration T Rm0 0 T0 = Ok 0).
Proof.
  unfold temperature_respiration. rewrite temperature_exponent. cbn [bind].
  unfold pow.
  destruct (total_order_T 0 0) as [[L|_]|L]; try lra.
  destruct (total_order_T 0 ((T - T0) / 10)) as [[L|E]|L];
    (split; [| split]); intros H; try lra; cbn [bind]; try reflexivity;
    f_equal; ring.
Qed.

Lemma X6_temperature_respiration_witness :
  20 < 25 /\ temperature_respiration 20 5 0 25 = Raise ZeroDivisionError.
Proof.
  assert (H : 20 < 25) by lra.
  split; [exact H |].
  exact (proj1 (X6_temperature_respiration_zero_Q10 20 5 25) H).
Defined.



(** ** Net photosynthesis: the drivers' curves *)

Lemma py_min_spec (a : ndarray) (lo : R) :
  py_min a = Some lo -> In lo a /\ Forall (fun v => lo <= v) a.
Proof.
  destruct a as [|x a]; [discriminate |]. simpl. intros H. injection H as <-.
  revert x. induction a as [|y a IH]; intros x; simpl.
  - split; [now left | constructor; [lra | constructor]].
  - destruct (IH (Rmin x y)) as [Hin Hall]. split.
    + destruct Hin as [E | Hin]; [| now right; right].
      rewrite <- E. unfold Rmin. destruct (Rle_dec x y); [now left | right; now left].
    + inversion Hall as [| ? ? Hm Hrest]; subst.
      pose proof (Rmin_l x y). pose proof (Rmin_r x y).
      constructor; [lra | constructor; [lra | exact Hrest]].
Qed.

Lemma linspace_0_first (stop : R) (k : nat) :
  In 0 (linspace 0 stop (S (S k))).
Proof.
  unfold linspace. apply in_or_app. left. apply in_map_iff.
  exists O. split; [simpl; ring | apply in_seq; lia].
Qed.

(** X8.  In [make_stacked_plot], the lower edge of the dark-respiration band,
    [Vc + photorespiration + dark_respiration], is the plotted [A_n] curve.
    With [Vc_max >= 0] and [0.5 * Vo + Rd >= 0], every plotted [A_n] value lies
    inside the y-limits [(min(An) * 1.1, Vc_max * 1.05)].  With
    [0.5 * Vo + Rd < 0] the smallest [A_n] value is positive, the lower limit
    is above it, and that point falls outside the axes. *)
Theorem X8_stacked_plot_curve_and_limits (Vc_max Vo Rd : R) :
  0 <= Vc_max ->
  (forall v, plot_net_photosynthesis.after_dark_respiration v Vo Rd
             = net_photosynthesis v Vo Rd)
  /\ exists lo hi,
       plot_net_photosynthesis.ylim Vc_max Vo Rd = Some (lo, hi)
       /\ (0 <= 0.5 * Vo + Rd ->
           Forall (fun a => lo <= a <= hi) (plot_net_photosynthesis.An Vc_max Vo Rd))
       /\ (0.5 * Vo + Rd < 0 ->
           exists a, In a (plot_net_photosynthesis.An Vc_max Vo Rd) /\ a < lo).
Proof.
  intros HV. split.
  - intros v. unfold plot_net_photosynthesis.after_dark_respiration,
      plot_net_photosynthesis.photorespiration,
      plot_net_photosynthesis.dark_respiration, net_photosynthesis. lra.
  - unfold plot_net_photosynthesis.ylim.
    destruct (py_min (plot_net_photosynthesis.An Vc_max Vo Rd)) as [m|] eqn:Em.
    2:{ unfold plot_net_photosynthesis.An, plot_net_photosynthesis.Vc, linspace in Em.
        simpl in Em. discriminate. }
    exists (m * 1.1), (Vc_max * 1.05). split; [reflexivity |].
    destruct (py_min_spec _ Em) as [Hin Hall].
    assert (Hgrid : Forall (fun a => - (0.5 * Vo + Rd) <= a <= Vc_max - (0.5 * Vo + Rd))
                      (plot_net_photosynthesis.An Vc_max Vo Rd)).
    { unfold plot_net_photosynthesis.An. apply Forall_map.
      eapply Forall_impl; [| apply (linspace_bounds 300 HV)].
      intros v Hv. cbv beta in *. unfold net_photosynthesis. lra. }
    assert (Hfirst : In (net_photosynthesis 0 Vo Rd) (plot_net_photosynthesis.An Vc_max Vo Rd)).
    { unfold plot_net_photosynthesis.An.
      apply (in_map (fun v => net_photosynthesis v Vo Rd)).
      unfold plot_net_photosynthesis.Vc. apply linspace_0_first. }
    split.
    + intros Hloss.
      assert (Hm0 : m <= 0).
      { rewrite Forall_forall in Hall. specialize (Hall _ Hfirst).
        unfold net_photosynthesis in Hall. lra. }
      rewrite Forall_forall in *. intros a Ha.
      specialize (Hall a Ha). specialize (Hgrid a Ha). lra.
    + intros Hgain. exists m. split; [exact Hin |].
      rewrite Forall_forall in Hgrid. specialize (Hgrid m Hin). lra.
Qed.

Lemma X8_stacked_plot_witness :
  0 <= 100
  /\ exists lo hi,
       plot_net_photosynthesis.ylim 100 40 2 = Some (lo, hi)
       /\ (0 <= 0.5 * 40 + 2 ->
           Forall (fun a => lo <= a <= hi) (plot_net_photosynthesis.An 100 40 2))
       /\ (0.5 * 40 + 2 < 0 ->
           exists a, In a (plot_net_photosynthesis.An 100 40 2) /\ a < lo).
Proof.
  assert (H : 0 <= 100) by lra.
  split; [exact H |].
  exact (proj2 (X8_stacked_plot_curve_and_limits 40 2 H)).
Defined.

(** ** Maintenance respiration: the drivers' sums *)

Lemma firstn_S_snoc (l : list R) (k : nat) :
  (k < length l)%nat -> firstn (S k) l = firstn k l ++ [nth k l 0].
Proof.
  revert k. induction l as [|x l IH]; intros k Hk; simpl in Hk; [lia |].
  destruct k as [|k]; [reflexivity |].
  change (firstn (S (S k)) (x :: l)) with (x :: firstn (S k) l).
  rewrite IH by lia. reflexivity.
Qed.

Lemma np_sum_snoc (l : list R) (x : R) : np_sum (l ++ [x]) = np_sum l + x.
Proof. unfold np_sum. rewrite fold_left_app. reflexivity. Qed.

Lemma zip_with_map_map (f : R -> R -> R) (g h : ndarray -> R) (M : list ndarray) :
  zip_with f (map g M) (map h M) = map (fun row => f (g row) (h row)) M.
Proof. induction M as [|row M IH]; simpl; [reflexivity | now rewrite IH]. Qed.

Lemma column_rectangular (i n : nat) (M : list ndarray) :
  Forall (fun row => length row = n) M -> (i < n)%nat ->
  plot_maintenance_respiration.column i M = Some (map (fun row => nth i row 0) M).
Proof.
  intros HM Hi. induction HM as [|row M Hrow _ IH]; [reflexivity |].
  simpl. rewrite IH.
  rewrite (nth_error_nth' row 0) by lia. reflexivity.
Qed.

(** The stacking loop after [k] organs: each entry of [bottom] is the sum of
    the first [k] contributions of its row. *)
Lemma stacked_totals_partial (n k : nat) (M : list ndarray) :
  Forall (fun row => length row = n) M -> (k <= n)%nat ->
  plot_maintenance_respiration.stacked_totals k M
  = Some (map (fun row => np_sum (firstn k row)) M).
Proof.
  intros HM. unfold plot_maintenance_respiration.stacked_totals.
  induction k as [|k IH]; intros Hk.
  - simpl. f_equal. induction M as [|row M IHM]; [reflexivity |].
    simpl. inversion HM; subst. now rewrite <- IHM.
  - rewrite seq_S, fold_left_app. cbn [fold_left Nat.add]. rewrite IH by lia.
    unfold plot_maintenance_respiration.stack_step.
    rewrite (column_rectangular HM) by lia.
    rewrite zip_with_map_map. f_equal.
    apply map_ext_in. intros row Hrow.
    rewrite Forall_forall in HM. specialize (HM row Hrow).
    rewrite firstn_S_snoc by lia. now rewrite np_sum_snoc.
Qed.

Lemma contributions_rectangular (weights : list ndarray) (coeffs : ndarray) :
  Forall (fun row => length row = length coeffs) weights ->
  plot_maintenance_respiration.contributions weights coeffs
  = Ok (map (fun row => zip_with Rmult row coeffs) weights).
Proof.
  intros HW. unfold plot_maintenance_respiration.contributions.
  induction HW as [|row M Hrow _ IH]; [reflexivity |].
  simpl. rewrite IH.
  unfold np_multiply, broadcast_shape. rewrite Hrow, Nat.eqb_refl. cbn [bind].
  rewrite broadcast_to_same. rewrite <- Hrow, broadcast_to_same. reflexivity.
Qed.

Lemma zip_with_length (f : R -> R -> R) (a b : list R) :
  length a = length b -> length (zip_with f a b) = length b.
Proof.
  revert b. induction a as [|x a IH]; intros [|y b] H; simpl in *; try lia.
  now rewrite IH by lia.
Qed.

(** X9.  In [make_organ_contribution_plot], for a weight table whose rows
    all have one entry per coefficient, [weights * coeffs] raises nothing and
    the stacking loop ends with [bottom] holding, for each growth stage, the
    value [maintenance_respiration] returns for that stage's weights: the
    total printed on top of each stacked bar is the formula's [R_m]. *)
Theorem X9_stacked_totals_are_maintenance_respiration
    (weights : list ndarray) (coeffs : ndarray) :
  Forall (fun row => length row = length coeffs) weights ->
  exists C totals,
    plot_maintenance_respiration.contributions weights coeffs = Ok C
    /\ plot_maintenance_respiration.stacked_totals (length coeffs) C = Some totals
    /\ map Ok totals = map (fun row => maintenance_respiration row coeffs) weights.
Proof.
  intros HW.
  exists (map (fun row => zip_with Rmult row coeffs) weights).
  exists (map (fun row => dot_product row coeffs) weights).
  split; [now apply contributions_rectangular |]. split.
  - rewrite (@stacked_totals_partial (length coeffs)); [| | lia].
    + apply f_equal. rewrite map_map. apply map_ext_in. intros row Hrow.
      rewrite Forall_forall in HW. specialize (HW row Hrow).
      rewrite firstn_all2 by (rewrite zip_with_length; lia).
      apply np_sum_zip_with.
    + apply Forall_map. eapply Forall_impl; [| exact HW].
      intros row Hrow. cbv beta. now apply zip_with_length.
  - rewrite map_map. apply map_ext_in. intros row Hrow.
    rewrite Forall_forall in HW. specialize (HW row Hrow).
    symmetry. now apply maintenance_respiration_equal_length.
Qed.

Lemma X9_stacked_totals_witness :
  exists C totals,
    plot_maintenance_respiration.contributions
      [[150; 50; 80; 0]; [250; 120; 150; 50]] [0.015; 0.010; 0.012; 0.008] = Ok C
    /\ plot_maintenance_respiration.stacked_totals 4 C = Some totals
    /\ map Ok totals
       = map (fun row => maintenance_respiration row [0.015; 0.010; 0.012; 0.008])
           [[150; 50; 80; 0]; [250; 120; 150; 50]].
Proof.
  apply (@X9_stacked_totals_are_maintenance_respiration
           [[150; 50; 80; 0]; [250; 120; 150; 50]] [0.015; 0.010; 0.012; 0.008]).
  repeat constructor.
Defined.








(** ** Growth respiration: composite coefficient and seasonal pattern *)





Lemma pow_exponent_2 (x : R) : pow x 2 = Ok (x * x).
Proof.
  unfold pow. destruct (total_order_T 0 x) as [[L|E]|L].
  - f_equal. replace 2 with (1 + 1) by lra.
    rewrite Rpower_plus, Rpower_1 by assumption. reflexivity.
  - destruct (total_order_T 0 2) as [[_|E2]|L2]; [| lra | lra].
    subst x. f_equal. ring.
  - replace (Int_part 2) with 2%Z by (apply Int_part_spec; simpl; lra).
    destruct (Req_dec_T 2 2) as [_|N]; [| now contradiction N].
    f_equal. simpl. ring.
Qed.

Lemma seasonal_GTW_value (max_GTW peak_day day : R) :
  plot_growth_respiration.GTW max_GTW peak_day day
  = Ok (max_GTW * exp (- (((day - peak_day) / 25) * ((day - peak_day) / 25)))).
Proof.
  unfold plot_growth_respiration.GTW.
  rewrite truediv_ok by lra. cbn [bind]. now rewrite pow_exponent_2.
Qed.

(** X14.  In [make_daily_pattern_plot], for [m >= 0] and [max_GTW >= 0] the
    growth respiration of every day is defined, lies between 0 and
    [peak_Rg = m * max_GTW], equals [peak_Rg] on the peak day, and is the same
    at equal distances before and after the peak day: the annotated peak is
    the maximum of the plotted curve, and the curve stays inside the y-limits
    [(0, peak_Rg * 1.2)]. *)
Theorem X14_seasonal_growth_respiration_peak (m max_GTW peak_day day : R) :
  0 <= m -> 0 <= max_GTW ->
  exists v,
    plot_growth_respiration.Rg m max_GTW peak_day day = Ok v
    /\ 0 <= v <= plot_growth_respiration.peak_Rg m max_GTW
    /\ v <= plot_growth_respiration.peak_Rg m max_GTW * 1.2
    /\ plot_growth_respiration.Rg m max_GTW peak_day peak_day
       = Ok (plot_growth_respiration.peak_Rg m max_GTW)
    /\ plot_growth_respiration.Rg m max_GTW peak_day (peak_day - (day - peak_day))
       = Ok v.
Proof.
  intros Hm HG. unfold plot_growth_respiration.Rg, plot_growth_respiration.peak_Rg.
  rewrite !seasonal_GTW_value. cbn [bind]. unfold growth_respiration.
  eexists. split; [reflexivity |].
  set (q := (day - peak_day) / 25).
  assert (He : 0 < exp (- (q * q)) <= 1).
  { split; [apply exp_pos |].
    rewrite <- exp_0. destruct (Req_dec_T (q * q) 0) as [E | N].
    - rewrite E, Ropp_0. lra.
    - left. apply exp_increasing. nra. }
  assert (HmG : 0 <= m * max_GTW) by now apply Rmult_le_pos.
  assert (Hsym : (peak_day - (day - peak_day) - peak_day) / 25
                 * ((peak_day - (day - peak_day) - peak_day) / 25) = q * q).
  { subst q. field. }
  rewrite Hsym. clearbody q.
  split; [| split; [| split]].
  - split; nra.
  - nra.
  - f_equal. replace ((peak_day - peak_day) / 25) with 0 by lra.
    rewrite Rmult_0_l, Ropp_0, exp_0. ring.
  - reflexivity.
Qed.

Lemma X14_seasonal_growth_respiration_witness :
  exists v,
    plot_growth_respiration.Rg 0.25 25 50 30 = Ok v
    /\ 0 <= v <= plot_growth_respiration.peak_Rg 0.25 25
    /\ v <= plot_growth_respiration.peak_Rg 0.25 25 * 1.2
    /\ plot_growth_respiration.Rg 0.25 25 50 50
       = Ok (plot_growth_respiration.peak_Rg 0.25 25)
    /\ plot_growth_respiration.Rg 0.25 25 50 (50 - (30 - 50)) = Ok v.
Proof.
  apply X14_seasonal_growth_respiration_peak; lra.
Defined.

(** ** Linear ratio of respiration to gross photosynthesis *)

Lemma linspace_nth_error_bounds (start stop : R) (num i : nat) :
  start <= stop -> (i < num)%nat ->
  exists v, nth_error (linspace start stop num) i = Some v /\ start <= v <= stop.
Proof.
  intros Hle Hi.
  destruct (nth_error (linspace start stop num) i) as [v|] eqn:E.
  - exists v. split; [reflexivity |].
    pose proof (linspace_bounds num Hle) as HB. rewrite Forall_forall in HB.
    apply HB. eapply nth_error_In. exact E.
  - apply nth_error_None in E. rewrite linspace_length in E. lia.
Qed.

(** X15.  In [make_plot] of plot_rp_pg.py, for
    [0 <= alpha_min <= alpha <= alpha_max] and [pg_max >= 0], at every one of
    the 200 grid points the typical line lies inside the shaded band
    ([y_min <= y_typ <= y_max]) and the band lies inside the y-limits
    [(0, alpha_max * pg_max * 1.05)]. *)
Theorem X15_rp_pg_band (alpha alpha_min alpha_max pg_max : R) (i : nat) :
  0 <= alpha_min -> alpha_min <= alpha -> alpha <= alpha_max -> 0 <= pg_max ->
  (i < 200)%nat ->
  exists lo t hi,
    nth_error (plot_rp_pg.y_min alpha_min pg_max) i = Some lo
    /\ nth_error (plot_rp_pg.y_typ alpha pg_max) i = Some t
    /\ nth_error (plot_rp_pg.y_max alpha_max pg_max) i = Some hi
    /\ lo <= t <= hi
    /\ fst (plot_rp_pg.ylim alpha_max pg_max) <= lo
    /\ hi <= snd (plot_rp_pg.ylim alpha_max pg_max).
Proof.
  intros H0 H1 H2 Hp Hi.
  destruct (@linspace_nth_error_bounds 0 pg_max 200 i Hp Hi) as (v & Ev & Hv).
  unfold plot_rp_pg.y_min, plot_rp_pg.y_typ, plot_rp_pg.y_max, plot_rp_pg.ylim,
    plot_rp_pg.x, scale.
  rewrite !nth_error_map, Ev. cbn [option_map fst snd].
  do 3 eexists. repeat (split; [reflexivity |]).
  repeat split; nra.
Qed.

Lemma X15_rp_pg_band_witness :
  exists lo t hi,
    nth_error (plot_rp_pg.y_min 0.30 40) 100 = Some lo
    /\ nth_error (plot_rp_pg.y_typ 0.45 40) 100 = Some t
    /\ nth_error (plot_rp_pg.y_max 0.60 40) 100 = Some hi
    /\ lo <= t <= hi
    /\ fst (plot_rp_pg.ylim 0.60 40) <= lo
    /\ hi <= snd (plot_rp_pg.ylim 0.60 40).
Proof.
  apply X15_rp_pg_band; try lra. lia.
Defined.

(** ** The CO2 sweep of the Rubisco plot *)




(** ** Style cycling and marker positions *)

(** X17.  The style lookup [styles[i % len(styles)]] of the drivers that take
    a list of levels never fails on a non-empty style list, whatever the
    number of levels: every index yields one of the styles, and the styles
    repeat with period [len(styles)]. *)
Theorem X17_cycle_lookup_total (A : Type) (styles : list A) (i : nat) :
  styles <> [] ->
  (exists s, cycle_lookup styles i = Some s /\ In s styles)
  /\ cycle_lookup styles (i + length styles) = cycle_lookup styles i.
Proof.
  intros Hne. destruct styles as [|s0 styles]; [now contradiction Hne |].
  unfold cycle_lookup.
  set (l := s0 :: styles).
  assert (Hlen : length l <> O) by (subst l; simpl; lia).
  split.
  - assert (Hlt : (i mod length l < length l)%nat) by now apply Nat.mod_upper_bound.
    destruct (nth_error l (i mod length l)) as [s|] eqn:E.
    + exists s. split; [reflexivity | eapply nth_error_In; exact E].
    + apply nth_error_None in E. lia.
  - f_equal.
    replace (i + length l)%nat with (i + 1 * length l)%nat by lia.
    now apply Nat.Div0.mod_add.
Qed.

Lemma X17_cycle_lookup_witness :
  (exists s, cycle_lookup [1%nat; 2%nat; 3%nat; 4%nat] 6 = Some s
             /\ In s [1%nat; 2%nat; 3%nat; 4%nat])
  /\ cycle_lookup [1%nat; 2%nat; 3%nat; 4%nat] (6 + 4)
     = cycle_lookup [1%nat; 2%nat; 3%nat; 4%nat] 6.
Proof.
  apply (@X17_cycle_lookup_total nat [1%nat; 2%nat; 3%nat; 4%nat] 6). discriminate.
Defined.

Lemma Int_part_between (v : R) (a b : Z) :
  IZR a <= v <= IZR b -> (a <= Int_part v <= b)%Z.
Proof.
  intros [Ha Hb]. destruct (base_Int_part v) as [H1 H2]. split.
  - assert (H : (a - 1 < Int_part v)%Z).
    { apply lt_IZR. rewrite minus_IZR. lra. }
    lia.
  - apply le_IZR. lra.
Qed.

(** X18.  The marker positions
    [np.linspace(margin, len(grid) - margin, k, dtype=int)]: for a grid with
    at least [2 * margin] points and [margin >= 1], there are [k] of them,
    each between [margin] and [len(grid) - margin], hence each a valid index
    into the grid and into the curve computed on it (no [IndexError]). *)
Theorem X18_sample_indices_valid (margin len_grid k : nat) :
  (1 <= margin)%nat -> (2 * margin <= len_grid)%nat ->
  length (sample_indices margin len_grid k) = k
  /\ Forall (fun idx => (Z.of_nat margin <= idx <= Z.of_nat len_grid - Z.of_nat margin)%Z)
       (sample_indices margin len_grid k)
  /\ valid_indices len_grid (sample_indices margin len_grid k).
Proof.
  intros Hm Hlen. unfold sample_indices, linspace_int, valid_indices.
  assert (Hle : INR margin <= INR len_grid - INR margin).
  { assert (H : INR (2 * margin) <= INR len_grid) by (apply le_INR; lia).
    rewrite mult_INR in H. simpl in H. lra. }
  assert (HB : Forall (fun idx => (Z.of_nat margin <= idx
                                    <= Z.of_nat len_grid - Z.of_nat margin)%Z)
                 (map Int_part (linspace (INR margin) (INR len_grid - INR margin) k))).
  { apply Forall_map. eapply Forall_impl; [| apply (linspace_bounds k Hle)].
    intros v Hv. cbv beta in *. apply Int_part_between.
    rewrite minus_IZR, <- !INR_IZR_INZ. exact Hv. }
  split; [| split].
  - now rewrite length_map, linspace_length.
  - exact HB.
  - eapply Forall_impl; [| exact HB]. intros idx Hidx. cbv beta in *. lia.
Qed.

(** The markers of a 300-point grid with margin 30, as every sweep draws them. *)
Lemma X18_sample_indices_witness :
  length (sample_indices 30 300 5) = 5%nat
  /\ Forall (fun idx => (Z.of_nat 30 <= idx <= Z.of_nat 300 - Z.of_nat 30)%Z)
       (sample_indices 30 300 5)
  /\ valid_indices 300 (sample_indices 30 300 5).
Proof.
  apply X18_sample_indices_valid; lia.
Defined.

(** ** Binary64: which calls can raise *)

Section RaisingCalls.

Import F64.

(** X19.  When both [CO2] and [O2] are numpy values, as in the call of
    [make_3d_plot] on the two mesh grids, [rubisco_rp] never raises, whatever
    the constants are (zero included): it returns the numpy value of the
    binary64 expression [Rpmax * (O2 / Ks) / (CO2 / Kc + (1 + O2 / Ko))]. *)
Theorem X19_rubisco_rp_numpy_never_raises (c o : float) (Rpmax Ks Kc Ko : num) :
  F64.rubisco_rp (Np c) (Np o) Rpmax Ks Kc Ko
  = Ok (Np (PrimFloat.div
              (PrimFloat.mul (val Rpmax) (PrimFloat.div o (val Ks)))
              (PrimFloat.add (PrimFloat.div c (val Kc))
                 (PrimFloat.add 1%float (PrimFloat.div o (val Ko)))))).
Proof.
  unfold F64.rubisco_rp, F64.truediv at 1 2 3. cbn [bind val].
  unfold add, mul. rewrite !binop_Np_r, truediv_Np_r.
  reflexivity.
Qed.

(** X20.  In the call of [make_plot], where [CO2] is a numpy value and [O2]
    and the constants are Python floats, [rubisco_rp] raises exactly when
    [Ks] or [Ko] is zero: those two divisions are between Python floats.
    A zero [Kc] alone raises nothing. *)
Theorem X20_rubisco_rp_make_plot_raises_iff (c o Rpmax Ks Kc Ko : float) :
  F64.rubisco_rp (Np c) (Py o) (Py Rpmax) (Py Ks) (Py Kc) (Py Ko)
  = Raise ZeroDivisionError
  <-> is_zero Ks = true \/ is_zero Ko = true.
Proof.
  unfold F64.rubisco_rp, F64.truediv at 1 2 3.
  destruct (is_zero Ks), (is_zero Ko); cbn [bind val]; cbv zeta;
    try (split; [intros _; tauto | reflexivity]).
  unfold add at 1. rewrite binop_Np_l, truediv_Np_r.
  split; [discriminate | intros [H | H]; discriminate].
Qed.

End RaisingCalls.
